(** * Mattwai/momenko, [verify/]: the two check scripts

    [verify/transformer.py] loads a text-generation pipeline and prints one
    completion; [verify/twilio_client.py] reads two credentials from the
    process environment, builds a Twilio client and prints it.

    Both scripts are straight-line sequences of calls into the Python
    runtime and into third-party libraries.  They are embedded as programs
    over a type of external calls: every statement of a script is one call,
    and the value it returns is bound for the statements after it.  A run
    threads the process state (environment, standard output, the log of
    calls made) and stops at the first call that raises.  The libraries
    are arbitrary: they answer each call as they like, and may read the
    process environment on their own. *)

From Stdlib Require Import Ascii.
From stdpp Require Import gmap strings list.

Open Scope Z_scope.
Open Scope string_scope.
Open Scope list_scope.

(** ** Values, exceptions, results *)

(** The Python values the scripts handle.  Objects built by a library (the
    pipeline, its output, the client) are references the scripts never look
    into. *)
Inductive value : Type :=
| VNone
| VBool (b : bool)
| VInt (n : Z)
| VStr (s : string)
| VObj (ref : nat).

#[global] Instance value_eq_dec : EqDecision value.
Proof. solve_decision. Defined.

Inductive exn : Type :=
| Exception (type : string) (message : string).

#[global] Instance exn_eq_dec : EqDecision exn.
Proof. solve_decision. Defined.

Inductive result (A : Type) : Type :=
| Returned (a : A)
| Raised (x : exn).
Arguments Returned {A} a.
Arguments Raised {A} x.

(** What [os.getenv] hands back: the string when the variable is set, the
    default otherwise. *)
Definition value_of_lookup (default : value) (o : option string) : value :=
  match o with
  | Some s => VStr s
  | None => default
  end.

(** ** External calls *)

(** The calls a script can make.  The first six are the ones the two
    scripts make: [import m] and [from m import names] ([names] is empty for
    the former), [pipeline(task, model=...)], the call of the pipeline
    object [chatbot(prompt, max_length=...)], [os.getenv(key)] with its
    optional default, [Client(username, password)] and [print(v)].
    [load_dotenv] is imported by [twilio_client.py]; [open] and a request
    through a client are what a script would use to touch a file or the
    network itself. *)
Inductive event : Type :=
| import_from (module : string) (names : list string)
| pipeline (task : string) (model : string)
| call_pipeline (chatbot : value) (prompt : string) (max_length : Z)
| getenv (key : string) (default : option value)
| Client (username password : value)
| print (v : value)
| load_dotenv
| open (path : string) (mode : string)
| client_request (client : value) (resource : string) (args : list value).

#[global] Instance event_eq_dec : EqDecision event.
Proof. solve_decision. Defined.

(** One line of the call log: the call and how it ended. *)
Definition entry : Type := event * result value.

(** ** Programs *)

(** A script: the end of the file, a call whose result the rest of the
    script may use, or a [try]/[except] block followed by the rest. *)
Inductive prog : Type :=
| Done
| Do (e : event) (k : value -> prog)
| Try (body : prog) (handler : exn -> prog) (k : prog).

Declare Scope prog_scope.
Delimit Scope prog_scope with prog.
Bind Scope prog_scope with prog.
Notation "x <~ e ;; k" := (Do e (fun x => k))
  (at level 20, e at level 99, k at level 200, only parsing) : prog_scope.

(** [handler_free p]: no [try] anywhere in [p], whatever the calls return. *)
Fixpoint handler_free (p : prog) : Prop :=
  match p with
  | Done => True
  | Do _ k => forall v, handler_free (k v)
  | Try _ _ _ => False
  end.

(** [emits p e]: the text of [p] contains the call [e], on some path. *)
Inductive emits : prog -> event -> Prop :=
| emits_here e k : emits (Do e k) e
| emits_later e k v e' : emits (k v) e' -> emits (Do e k) e'
| emits_body b h k e : emits b e -> emits (Try b h k) e
| emits_handler b h k x e : emits (h x) e -> emits (Try b h k) e
| emits_after b h k e : emits k e -> emits (Try b h k) e.

(** ** The process and its collaborators *)

(** The process: [os.environ], the variables a [.env] file in the working
    directory defines, what has been written to standard output, and the
    calls made so far. *)
Record state : Type := {
  environ : gmap string string;
  dotenv : gmap string string;
  stdout : string;
  history : list entry
}.

(** The libraries and the runtime services the scripts call into.  A
    collaborator runs inside the process: it answers a call from the call
    itself and from the process as it stands, that is the log of the calls
    before it (so it may keep state of its own) and also the environment
    and the [.env] file, which a library is free to read by itself.
    [str_of] is [str()] as [print] applies it. *)
Record World : Type := {
  collaborator : state -> event -> result value;
  str_of : value -> result string
}.

Definition newline : string := String "010"%char EmptyString.

Definition write_stdout (s : string) (st : state) : state :=
  {| environ := environ st; dotenv := dotenv st;
     stdout := stdout st +:+ s; history := history st |}.

Definition set_environ (env : gmap string string) (st : state) : state :=
  {| environ := env; dotenv := dotenv st;
     stdout := stdout st; history := history st |}.

Definition log (en : entry) (st : state) : state :=
  {| environ := environ st; dotenv := dotenv st;
     stdout := stdout st; history := history st ++ [en] |}.

(** One call.  [os.getenv] looks the key up in the environment; [print]
    writes [str(v)] and a newline; [load_dotenv()] adds the variables of
    the [.env] file that the environment does not define yet.  Everything
    else is answered by the collaborators, which see the process as it
    stands; the variables the scripts read are taken to be left as they
    are by the libraries. *)
Definition perform (w : World) (e : event) (st : state) : result value * state :=
  match e with
  | getenv key d =>
      (Returned (value_of_lookup (default VNone d) (environ st !! key)), st)
  | print v =>
      match str_of w v with
      | Returned s => (Returned VNone, write_stdout (s +:+ newline) st)
      | Raised x => (Raised x, st)
      end
  | load_dotenv =>
      (Returned (VBool (bool_decide (dotenv st <> ∅))),
       set_environ (environ st ∪ dotenv st) st)
  | _ => (collaborator w st e, st)
  end.

(** How a run ends: the script reached its end, or an exception nobody
    caught ended the process. *)
Inductive outcome : Type :=
| Finished
| Failed (x : exn).

#[global] Instance outcome_eq_dec : EqDecision outcome.
Proof. solve_decision. Defined.

(** Running a script.  Each call is performed and logged; a call that
    raises ends the run unless a [try] block encloses it. *)
Fixpoint run (w : World) (p : prog) (st : state) : outcome * state :=
  match p with
  | Done => (Finished, st)
  | Do e k =>
      let '(r, st1) := perform w e st in
      let st2 := log (e, r) st1 in
      match r with
      | Returned v => run w (k v) st2
      | Raised x => (Failed x, st2)
      end
  | Try body handler k =>
      match run w body st with
      | (Finished, st1) => run w k st1
      | (Failed x, st1) =>
          match run w (handler x) st1 with
          | (Finished, st2) => run w k st2
          | failed => failed
          end
      end
  end.

(** The calls a run makes, in order: what it adds to the log. *)
Definition calls (w : World) (p : prog) (st : state) : list entry :=
  drop (length (history st)) (history (run w p st).2).

(** ** The scripts *)

(** [verify/transformer.py] *)
Definition transformer : prog :=
  (_ <~ import_from "transformers" ["pipeline"] ;;
   chatbot <~ pipeline "text-generation" "distilgpt2" ;;
   completion <~ call_pipeline chatbot "Hello!" 20 ;;
   _ <~ print completion ;;
   Done)%prog.

(** [verify/twilio_client.py] *)
Definition twilio_client : prog :=
  (_ <~ import_from "os" [] ;;
   _ <~ import_from "dotenv" ["load_dotenv"] ;;
   _ <~ import_from "twilio.rest" ["Client"] ;;
   account_sid <~ getenv "TWILIO_SID" None ;;
   auth_token <~ getenv "TWILIO_AUTH_TOKEN" None ;;
   client <~ Client account_sid auth_token ;;
   _ <~ print client ;;
   Done)%prog.

(** For contrast, not a script of the repository: the messaging script with
    a call of [load_dotenv()] put before the reads. *)
Definition twilio_client_loading_dotenv : prog :=
  (_ <~ load_dotenv ;;
   account_sid <~ getenv "TWILIO_SID" None ;;
   auth_token <~ getenv "TWILIO_AUTH_TOKEN" None ;;
   client <~ Client account_sid auth_token ;;
   _ <~ print client ;;
   Done)%prog.

(** ** Observations on a call log *)

(** The generation calls in a log: pipeline object, prompt, length bound. *)
Definition generation_calls (t : list entry) : list (value * string * Z) :=
  omap (fun en : entry =>
          match en.1 with
          | call_pipeline c prompt n => Some (c, prompt, n)
          | _ => None
          end) t.

(** The completions a log holds: the prompt and the value of every
    generation call that returned. *)
Definition completions (t : list entry) : list (string * value) :=
  omap (fun en : entry =>
          match en with
          | (call_pipeline _ prompt _, Returned v) => Some (prompt, v)
          | _ => None
          end) t.

(** The environment reads in a log: variable name and default. *)
Definition env_reads (t : list entry) : list (string * option value) :=
  omap (fun en : entry =>
          match en.1 with
          | getenv key d => Some (key, d)
          | _ => None
          end) t.

(** The client constructions in a log: the two arguments. *)
Definition constructions (t : list entry) : list (value * value) :=
  omap (fun en : entry =>
          match en.1 with
          | Client u p => Some (u, p)
          | _ => None
          end) t.

(** Calls by which a script itself touches a file. *)
Definition file_io (e : event) : bool :=
  match e with
  | load_dotenv | open _ _ => true
  | _ => false
  end.

(** Calls by which a script itself goes to the network through a client. *)
Definition network_call (e : event) : bool :=
  match e with
  | client_request _ _ _ => true
  | _ => false
  end.

(** Calls by which a script takes input: the environment, a [.env] file,
    any other file. *)
Definition reads_input (e : event) : bool :=
  match e with
  | getenv _ _ | load_dotenv | open _ _ => true
  | _ => false
  end.

(** An import that raised. *)
Definition import_failed (t : list entry) : bool :=
  existsb (fun en : entry =>
             match en with
             | (import_from _ _, Raised _) => true
             | _ => false
             end) t.

Definition is_import (e : event) : bool :=
  match e with
  | import_from _ _ => true
  | _ => false
  end.

Definition returned (en : entry) : Prop := exists v, en.2 = Returned v.

(** What [os.getenv(key)] returns in state [st]: the variable's string, or
    [None] when it is not set. *)
Definition env_value (st : state) (key : string) : value :=
  value_of_lookup VNone (environ st !! key).

(** [reads_within ks e]: if [e] reads the environment, it reads a variable
    of [ks]; it does not load the [.env] file. *)
Definition reads_within (ks : list string) (e : event) : Prop :=
  match e with
  | getenv key _ => In key ks
  | load_dotenv => False
  | _ => True
  end.

(** Two process states that differ at most in the [.env] file and in
    environment variables outside [ks]. *)
Definition agree (ks : list string) (st1 st2 : state) : Prop :=
  (forall k, In k ks -> environ st1 !! k = environ st2 !! k) /\
  stdout st1 = stdout st2 /\
  history st1 = history st2.

(** Collaborators whose answers take nothing from the process but the
    log, standard output and the variables [ks]. *)
Definition respects (ks : list string) (w : World) : Prop :=
  forall st1 st2 e, agree ks st1 st2 -> collaborator w st1 e = collaborator w st2 e.

(** ** Sample collaborators and process states *)

Definition generated_text : string :=
  "[{'generated_text': 'Hello! I am a'}]".

(** Everything installed and reachable: the imports return, the model
    loads, generation returns an object printed as [generated_text], the
    client is built whatever the credentials are. *)
Definition sample_world : World :=
  {| collaborator := fun _ e =>
       match e with
       | import_from _ _ => Returned VNone
       | pipeline _ _ => Returned (VObj 1)
       | call_pipeline _ _ _ => Returned (VObj 2)
       | Client _ _ => Returned (VObj 3)
       | _ => Raised (Exception "RuntimeError" "unexpected call")
       end;
     str_of := fun v =>
       match v with
       | VObj 2 => Returned generated_text
       | VObj 3 => Returned "<Twilio ACtest>"
       | VStr s => Returned s
       | _ => Returned "None"
       end |}.

(** The model cannot be loaded. *)
Definition offline_world : World :=
  {| collaborator := fun st e =>
       match e with
       | import_from _ _ => Returned VNone
       | pipeline _ _ => Raised (Exception "OSError" "cannot load distilgpt2")
       | _ => collaborator sample_world st e
       end;
     str_of := str_of sample_world |}.

(** A client library that insists on both credentials. *)
Definition strict_world : World :=
  {| collaborator := fun st e =>
       match e with
       | Client VNone _ | Client _ VNone =>
           Raised (Exception "TwilioException" "Credentials are required")
       | _ => collaborator sample_world st e
       end;
     str_of := str_of sample_world |}.

(** A client library that, when no account identifier is passed, falls
    back on the variable [TWILIO_ACCOUNT_SID] of the environment, and, when
    no token is passed, on [TWILIO_AUTH_TOKEN]; it raises when either is
    still missing. *)
Definition fallback_world : World :=
  {| collaborator := fun st e =>
       match e with
       | Client u p =>
           let username :=
             match u with
             | VNone => env_value st "TWILIO_ACCOUNT_SID"
             | _ => u
             end in
           let password :=
             match p with
             | VNone => env_value st "TWILIO_AUTH_TOKEN"
             | _ => p
             end in
           match username, password with
           | VNone, _ | _, VNone =>
               Raised (Exception "TwilioException" "Credentials are required")
           | _, _ => Returned (VObj 4)
           end
       | _ => collaborator sample_world st e
       end;
     str_of := fun v =>
       match v with
       | VObj 4 => Returned "<Twilio ACthird>"
       | _ => str_of sample_world v
       end |}.

(** The [dotenv] package is not installed. *)
Definition no_dotenv_world : World :=
  {| collaborator := fun st e =>
       match e with
       | import_from "dotenv" _ =>
           Raised (Exception "ModuleNotFoundError" "No module named 'dotenv'")
       | _ => collaborator sample_world st e
       end;
     str_of := str_of sample_world |}.

(** A process at its start: nothing printed, no call made. *)
Definition fresh (env file : gmap string string) : state :=
  {| environ := env; dotenv := file; stdout := EmptyString; history := [] |}.

Definition credentials : gmap string string :=
  {[ "TWILIO_SID" := "ACtest"; "TWILIO_AUTH_TOKEN" := "secret" ]}.

(** The account identifier is set, the token is not. *)
Definition sid_only : state := fresh {[ "TWILIO_SID" := "ACtest" ]} ∅.

(** The token is set, [TWILIO_SID] is not; in the second state the
    variable [TWILIO_ACCOUNT_SID], which the script does not read, is set
    as well. *)
Definition token_only : state :=
  fresh {[ "TWILIO_AUTH_TOKEN" := "secret" ]} ∅.

Definition token_and_account : state :=
  fresh {[ "TWILIO_AUTH_TOKEN" := "secret"; "TWILIO_ACCOUNT_SID" := "ACthird" ]} ∅.

(** Another account in the [.env] file, and more variables in the
    environment. *)
Definition other_dotenv : gmap string string :=
  {[ "TWILIO_SID" := "ACother"; "TWILIO_AUTH_TOKEN" := "other" ]}.

Definition more_variables : gmap string string :=
  <[ "TWILIO_ACCOUNT_SID" := "ACthird" ]> (<[ "HOME" := "/root" ]> credentials).

(** ** The call log of a run *)

Section Runs.
Context (w : World).

Lemma perform_history e st : history (perform w e st).2 = history st.
Proof.
  destruct e; simpl; try reflexivity.
  destruct (str_of w v); reflexivity.
Qed.

(** A run only appends to the log, and what it appends are calls that
    occur in the text of the script. *)
Lemma run_appends p :
  forall st, exists t,
    history (run w p st).2 = history st ++ t /\
    Forall (fun en : entry => emits p en.1) t.
Proof.
  induction p as [|e k IHk|body IHb handler IHh k IHk]; intros st.
  - exists []. split; [simpl; by rewrite app_nil_r | constructor].
  - simpl. destruct (perform w e st) as [r st1] eqn:Hp.
    assert (Hh : history st1 = history st)
      by (pose proof (perform_history e st) as E; by rewrite Hp in E).
    destruct r as [v|x].
    + destruct (IHk v (log (e, Returned v) st1)) as (t & Ht & Hem).
      exists ((e, Returned v) :: t). split.
      * rewrite Ht. simpl. rewrite Hh. by rewrite <- app_assoc.
      * constructor; [apply emits_here|].
        eapply Forall_impl; [exact Hem|]. intros en Hen.
        exact (emits_later _ _ v _ Hen).
    + exists [(e, Raised x)]. split; [simpl; by rewrite Hh|].
      repeat constructor.
  - simpl. destruct (IHb st) as (tb & Hb & Hemb).
    assert (Hemb' : Forall (fun en : entry => emits (Try body handler k) en.1) tb)
      by (eapply Forall_impl; [exact Hemb|]; intros; by apply emits_body).
    destruct (run w body st) as [[|x] st1]; simpl in Hb.
    + destruct (IHk st1) as (tk & Hk & Hemk).
      exists (tb ++ tk). split.
      * rewrite Hk, Hb. by rewrite app_assoc.
      * apply Forall_app. split; [done|].
        eapply Forall_impl; [exact Hemk|]. intros; by apply emits_after.
    + destruct (IHh x st1) as (th & Hh & Hemh).
      assert (Hemh' : Forall (fun en : entry => emits (Try body handler k) en.1) th)
        by (eapply Forall_impl; [exact Hemh|]; intros en Hen; exact (emits_handler _ _ _ x _ Hen)).
      destruct (run w (handler x) st1) as [[|y] st2]; simpl in Hh.
      * destruct (IHk st2) as (tk & Hk & Hemk).
        exists (tb ++ th ++ tk). split.
        -- rewrite Hk, Hh, Hb. by rewrite !app_assoc.
        -- rewrite !Forall_app. repeat split; try done.
           eapply Forall_impl; [exact Hemk|]. intros; by apply emits_after.
      * exists (tb ++ th). split.
        -- simpl. rewrite Hh, Hb. by rewrite app_assoc.
        -- by apply Forall_app.
Qed.

Lemma run_history p st :
  history (run w p st).2 = history st ++ calls w p st.
Proof.
  destruct (run_appends p st) as (t & Ht & _).
  unfold calls. rewrite Ht. by rewrite drop_app_length.
Qed.

Lemma calls_of_history p st t :
  history (run w p st).2 = history st ++ t -> calls w p st = t.
Proof. intros H. unfold calls. rewrite H. apply drop_app_length. Qed.

Lemma calls_emitted p st en :
  In en (calls w p st) -> emits p en.1.
Proof.
  destruct (run_appends p st) as (t & Ht & Hem).
  rewrite (calls_of_history _ _ _ Ht).
  rewrite List.Forall_forall in Hem. apply Hem.
Qed.

Lemma calls_Done st : calls w Done st = [].
Proof. apply calls_of_history. simpl. by rewrite app_nil_r. Qed.

(** The log of a script that starts with a call: that call, then the
    log of the rest when it returned. *)
Lemma calls_Do e k st :
  calls w (Do e k) st =
  (e, (perform w e st).1) ::
  match (perform w e st).1 with
  | Returned v => calls w (k v) (log (e, Returned v) (perform w e st).2)
  | Raised _ => []
  end.
Proof.
  apply calls_of_history. simpl.
  pose proof (perform_history e st) as Hh.
  destruct (perform w e st) as [[v|x] st1]; simpl in *.
  - rewrite run_history. simpl. rewrite Hh. by rewrite <- app_assoc.
  - by rewrite Hh.
Qed.

Lemma run_Do e k st :
  run w (Do e k) st =
  match (perform w e st).1 with
  | Returned v => run w (k v) (log (e, Returned v) (perform w e st).2)
  | Raised x => (Failed x, log (e, Raised x) (perform w e st).2)
  end.
Proof. simpl. by destruct (perform w e st) as [[v|x] st1]. Qed.

(** *** Scripts without [try] *)

(** A log has at most one raising call after returning ones: its last. *)
Lemma raise_is_last (pre pre' post : list entry) e x e' x' :
  Forall returned pre' ->
  pre ++ (e, Raised x) :: post = pre' ++ [(e', Raised x')] ->
  pre = pre' /\ e = e' /\ x = x' /\ post = [].
Proof.
  intros Hret. revert pre.
  induction Hret as [|a pre' Ha _ IH]; intros pre Heq.
  - destruct pre as [|b pre]; simpl in Heq.
    + by inversion Heq.
    + inversion Heq as [[Hb Hnil]]. by destruct pre.
  - destruct pre as [|b pre]; simpl in Heq.
    + inversion Heq; subst. destruct Ha as [v Hv]. discriminate Hv.
    + inversion Heq as [[Hb Htl]]. destruct (IH _ Htl) as (-> & ? & ? & ?).
      by subst.
Qed.

(** In a script without [try], every call of a finished run returned, and
    a failed run ends with the call that raised: the exception that ends
    the process is that call's, and no call follows it. *)
Lemma handler_free_run p :
  handler_free p -> forall st,
  match (run w p st).1 with
  | Finished => Forall returned (calls w p st)
  | Failed x =>
      exists pre e, calls w p st = pre ++ [(e, Raised x)] /\ Forall returned pre
  end.
Proof.
  induction p as [|e k IHk|body _ handler _ k _]; intros Hfree st.
  - rewrite calls_Done. simpl. constructor.
  - rewrite run_Do, calls_Do.
    destruct (perform w e st) as [[v|x] st1]; simpl.
    + specialize (IHk v (Hfree v) (log (e, Returned v) st1)).
      destruct (run w (k v) (log (e, Returned v) st1)) as [[|x] st2]; simpl in *.
      * constructor; [by exists v | done].
      * destruct IHk as (pre & e' & Hc & Hpre).
        exists ((e, Returned v) :: pre), e'. split; [by rewrite Hc|].
        constructor; [by exists v | done].
    + exists [], e. split; [done | constructor].
  - destruct Hfree.
Qed.

Lemma handler_free_propagates p st pre e x post :
  handler_free p ->
  calls w p st = pre ++ (e, Raised x) :: post ->
  post = [] /\ (run w p st).1 = Failed x.
Proof.
  intros Hfree Hc. pose proof (handler_free_run p Hfree st) as Hrun.
  destruct (run w p st).1 as [|x'].
  - rewrite Hc in Hrun. apply Forall_app in Hrun as [_ Hrun].
    inversion Hrun as [|? ? [v Hv] _]. discriminate Hv.
  - destruct Hrun as (pre' & e' & Hc' & Hpre').
    rewrite Hc in Hc'.
    destruct (raise_is_last _ _ _ _ _ _ _ Hpre' Hc') as (_ & _ & -> & ->).
    done.
Qed.

Lemma handler_free_failure p st x :
  handler_free p ->
  (run w p st).1 = Failed x ->
  exists pre e, calls w p st = pre ++ [(e, Raised x)].
Proof.
  intros Hfree Ho. pose proof (handler_free_run p Hfree st) as Hrun.
  rewrite Ho in Hrun. destruct Hrun as (pre & e & Hc & _). by exists pre, e.
Qed.

(** *** What a run can depend on *)

Lemma perform_agree ks e st1 st2 :
  respects ks w ->
  reads_within ks e -> agree ks st1 st2 ->
  (perform w e st1).1 = (perform w e st2).1 /\
  agree ks (perform w e st1).2 (perform w e st2).2.
Proof.
  intros Hw Hr Hag. pose proof Hag as (Henv & Hout & Hhist).
  destruct e; simpl in *; try (rewrite (Hw st1 st2 _ Hag); by repeat split).
  - rewrite (Henv _ Hr). by repeat split.
  - destruct (str_of w v); repeat split; try done.
    unfold write_stdout; simpl. by f_equal.
  - destruct Hr.
Qed.

Lemma agree_log ks en st1 st2 :
  agree ks st1 st2 -> agree ks (log en st1) (log en st2).
Proof. intros (? & ? & Hh). repeat split; simpl; try done. by rewrite Hh. Qed.

(** A script whose reads stay within [ks], run against collaborators that
    take nothing else from the process either, runs the same way from any
    two states that agree on [ks]. *)
Lemma run_agree ks p :
  respects ks w ->
  (forall e, emits p e -> reads_within ks e) ->
  forall st1 st2, agree ks st1 st2 ->
  (run w p st1).1 = (run w p st2).1 /\
  agree ks (run w p st1).2 (run w p st2).2.
Proof.
  intros Hw.
  induction p as [|e k IHk|body IHb handler IHh k IHk]; intros Hem st1 st2 Hag.
  - done.
  - rewrite !run_Do.
    destruct (perform_agree ks e st1 st2) as [Hr Hag'];
      [done | apply Hem, emits_here | done |].
    rewrite <- Hr. destruct (perform w e st1).1 as [v|x]; simpl.
    + apply IHk; [|by apply agree_log].
      intros e' He'. apply Hem. exact (emits_later _ _ v _ He').
    + split; [done | by apply agree_log].
  - simpl.
    destruct (IHb (fun e He => Hem e (emits_body _ _ _ _ He)) st1 st2 Hag) as [Ho Hag1].
    destruct (run w body st1) as [o1 s1], (run w body st2) as [o2 s2].
    simpl in Ho, Hag1. subst o2.
    assert (Hk : forall e, emits k e -> reads_within ks e)
      by (intros e He; apply Hem; by apply emits_after).
    destruct o1 as [|x]; [by apply IHk|].
    destruct (IHh x (fun e He => Hem e (emits_handler _ _ _ x _ He)) s1 s2 Hag1)
      as [Ho Hag2].
    destruct (run w (handler x) s1) as [o1 t1], (run w (handler x) s2) as [o2 t2].
    simpl in Ho, Hag2. subst o2.
    destruct o1; [by apply IHk | done].
Qed.

End Runs.

Arguments calls : simpl never.
Arguments run : simpl never.

(** ** Running the scripts *)

(** Symbolic execution: perform the next call of the script under
    consideration and split on the collaborator's answer. *)
Ltac next_call :=
  rewrite ?run_Do, ?calls_Do, ?calls_Done; cbn [perform fst snd];
  try match goal with
  | |- context [collaborator ?w ?h ?e] =>
      let r := fresh "r" in
      let E := fresh "E" in
      destruct (collaborator w h e) as [r|r] eqn:E
  | |- context [str_of ?w ?v] =>
      let s := fresh "s" in
      let E := fresh "E" in
      destruct (str_of w v) as [s|s] eqn:E
  end;
  cbn [fst snd].

Ltac run_script := repeat next_call.

(** Neither script has a [try] block. *)
Lemma transformer_handler_free : handler_free transformer.
Proof. unfold transformer. simpl. done. Qed.

Lemma twilio_client_handler_free : handler_free twilio_client.
Proof. unfold twilio_client. simpl. done. Qed.

(** The calls in the text of each script. *)
Lemma transformer_emits e :
  emits transformer e ->
  e = import_from "transformers" ["pipeline"] \/
  e = pipeline "text-generation" "distilgpt2" \/
  (exists chatbot, e = call_pipeline chatbot "Hello!" 20) \/
  (exists completion, e = print completion).
Proof.
  unfold transformer. intros H.
  repeat match goal with
         | H : emits (Do _ _) _ |- _ => inversion H; clear H; subst
         | H : emits Done _ |- _ => inversion H
         end; eauto 6.
Qed.

Lemma twilio_client_emits e :
  emits twilio_client e ->
  (exists m names, e = import_from m names) \/
  e = getenv "TWILIO_SID" None \/
  e = getenv "TWILIO_AUTH_TOKEN" None \/
  (exists account_sid auth_token, e = Client account_sid auth_token) \/
  (exists client, e = print client).
Proof.
  unfold twilio_client. intros H.
  repeat match goal with
         | H : emits (Do _ _) _ |- _ => inversion H; clear H; subst
         | H : emits Done _ |- _ => inversion H
         end; eauto 8.
Qed.

(** ** [verify/transformer.py] *)

(** Split a membership hypothesis over an explicit log. *)
Ltac in_log H :=
  cbn in H;
  repeat (destruct H as [H|H];
          [try discriminate H; try (inversion H; subst; clear H)|]);
  try contradiction.

(** C1.  The text-generation script calls the generation pipeline at most
    once in any run, and never with another prompt than ["Hello!"] or
    another bound than [max_length=20].  Once the model is loaded the call
    is made exactly once, on the loaded pipeline.  When the call returns,
    the value it returns is printed by the last call of the run, and
    standard output receives [str] of that value and a newline.  A run
    that reaches the end of the script is: the import, the loading of the
    model, that one generation call, the printing of its result. *)
Theorem transformer_generates_once_and_prints (w : World) (st : state) :
  let made := calls w transformer st in
  (length (generation_calls made) <= 1)%nat /\
  Forall (fun g : value * string * Z => g.1.2 = "Hello!" /\ g.2 = 20)
         (generation_calls made) /\
  (forall chatbot,
     In (pipeline "text-generation" "distilgpt2", Returned chatbot) made ->
     generation_calls made = [(chatbot, "Hello!", 20)]) /\
  (forall chatbot completion,
     In (call_pipeline chatbot "Hello!" 20, Returned completion) made ->
     exists printed,
       last made = Some (print completion, printed) /\
       forall text, str_of w completion = Returned text ->
         printed = Returned VNone /\
         stdout (run w transformer st).2 = stdout st +:+ text +:+ newline) /\
  (forall st',
     run w transformer st = (Finished, st') ->
     exists m chatbot completion text,
       made =
         [ (import_from "transformers" ["pipeline"], Returned m);
           (pipeline "text-generation" "distilgpt2", Returned chatbot);
           (call_pipeline chatbot "Hello!" 20, Returned completion);
           (print completion, Returned VNone) ] /\
       str_of w completion = Returned text /\
       stdout st' = stdout st +:+ text +:+ newline).
Proof.
  unfold transformer. run_script; cbn zeta;
    (split; [cbn; lia|]);
    (split; [cbn; by repeat constructor|]);
    (split; [intros chatbot Hin; in_log Hin; reflexivity|]);
    (split; [intros chatbot completion Hin; in_log Hin
            |intros st' Hrun; try discriminate Hrun]).
  - exists (Returned VNone). split; [reflexivity|].
    intros text Ht. rewrite E2 in Ht. inversion Ht; subst. done.
  - inversion Hrun; subst st'. by exists r, r0, r1, s.
  - exists (Raised s). split; [reflexivity|].
    intros text Ht. rewrite E2 in Ht. discriminate Ht.
Qed.

Lemma transformer_generates_once_and_prints_witness :
  exists m chatbot completion text,
    calls sample_world transformer (fresh ∅ ∅) =
      [ (import_from "transformers" ["pipeline"], Returned m);
        (pipeline "text-generation" "distilgpt2", Returned chatbot);
        (call_pipeline chatbot "Hello!" 20, Returned completion);
        (print completion, Returned VNone) ] /\
    str_of sample_world completion = Returned text /\
    stdout (run sample_world transformer (fresh ∅ ∅)).2 =
      stdout (fresh ∅ ∅) +:+ text +:+ newline.
Proof.
  destruct (transformer_generates_once_and_prints sample_world (fresh ∅ ∅))
    as (_ & _ & _ & _ & Hfinished).
  apply Hfinished. vm_compute. reflexivity.
Defined.

(** C7, as stated, fails: when the model cannot be loaded the run ends
    before the generation call, with no completion at all. *)
Lemma transformer_offline_no_completion :
  calls offline_world transformer (fresh ∅ ∅) =
    [ (import_from "transformers" ["pipeline"], Returned VNone);
      (pipeline "text-generation" "distilgpt2",
       Raised (Exception "OSError" "cannot load distilgpt2")) ] /\
  (run offline_world transformer (fresh ∅ ∅)).1 =
    Failed (Exception "OSError" "cannot load distilgpt2") /\
  completions (calls offline_world transformer (fresh ∅ ∅)) = [] /\
  length (completions (calls offline_world transformer (fresh ∅ ∅))) <> 1%nat.
Proof. vm_compute. repeat split; congruence. Qed.

(** C7, amended.  Every run of the text-generation script either produces
    exactly one completion, for the prompt ["Hello!"], or is ended by the
    failure of an external call with no completion produced; a run that
    reaches the end of the script is of the first kind.  No run produces
    more than one. *)
Theorem transformer_one_completion_unless_failed (w : World) (st : state) :
  (exists completion,
     completions (calls w transformer st) = [("Hello!", completion)]) \/
  (completions (calls w transformer st) = [] /\
   exists x, (run w transformer st).1 = Failed x).
Proof.
  unfold transformer. run_script; cbn; eauto.
Qed.

(** ** [verify/twilio_client.py] *)

(** C2.  In a run of the messaging-client script whose imports succeed, the
    calls after the imports are: [os.getenv("TWILIO_SID")] and
    [os.getenv("TWILIO_AUTH_TOKEN")], both without a default; then the
    construction of the client on exactly the two values read, whatever
    they are; then, when the construction returned a client, the printing
    of that client, which puts [str] of it and a newline on standard
    output.  These two reads are all the input the run takes. *)
Theorem twilio_client_reads_two_and_constructs (w : World) (st : state) :
  import_failed (calls w twilio_client st) = false ->
  exists m1 m2 m3 r rest,
    calls w twilio_client st =
      [ (import_from "os" [], Returned m1);
        (import_from "dotenv" ["load_dotenv"], Returned m2);
        (import_from "twilio.rest" ["Client"], Returned m3);
        (getenv "TWILIO_SID" None, Returned (env_value st "TWILIO_SID"));
        (getenv "TWILIO_AUTH_TOKEN" None,
         Returned (env_value st "TWILIO_AUTH_TOKEN"));
        (Client (env_value st "TWILIO_SID") (env_value st "TWILIO_AUTH_TOKEN"), r)
      ] ++ rest /\
    match r with
    | Returned client =>
        exists printed, rest = [(print client, printed)] /\
        forall text, str_of w client = Returned text ->
          printed = Returned VNone /\
          stdout (run w twilio_client st).2 = stdout st +:+ text +:+ newline
    | Raised _ => rest = []
    end /\
    env_reads (calls w twilio_client st) =
      [("TWILIO_SID", None); ("TWILIO_AUTH_TOKEN", None)] /\
    constructions (calls w twilio_client st) =
      [(env_value st "TWILIO_SID", env_value st "TWILIO_AUTH_TOKEN")] /\
    filter (fun e => reads_input e) (calls w twilio_client st).*1 =
      [getenv "TWILIO_SID" None; getenv "TWILIO_AUTH_TOKEN" None].
Proof.
  unfold twilio_client, env_value. run_script; cbn; intros H; try discriminate H.
  - exists r, r0, r1, (Returned r2), [(print r2, Returned VNone)].
    repeat split. exists (Returned VNone). split; [done|].
    intros text Ht. rewrite E3 in Ht. by inversion Ht.
  - exists r, r0, r1, (Returned r2), [(print r2, Raised s)].
    repeat split. exists (Raised s). split; [done|].
    intros text Ht. rewrite E3 in Ht. discriminate Ht.
  - exists r, r0, r1, (Raised r2), []. done.
Qed.

Lemma twilio_client_reads_two_and_constructs_witness :
  exists m1 m2 m3 r rest,
    calls sample_world twilio_client (fresh credentials ∅) =
      [ (import_from "os" [], Returned m1);
        (import_from "dotenv" ["load_dotenv"], Returned m2);
        (import_from "twilio.rest" ["Client"], Returned m3);
        (getenv "TWILIO_SID" None,
         Returned (env_value (fresh credentials ∅) "TWILIO_SID"));
        (getenv "TWILIO_AUTH_TOKEN" None,
         Returned (env_value (fresh credentials ∅) "TWILIO_AUTH_TOKEN"));
        (Client (env_value (fresh credentials ∅) "TWILIO_SID")
                (env_value (fresh credentials ∅) "TWILIO_AUTH_TOKEN"), r)
      ] ++ rest /\
    match r with
    | Returned client =>
        exists printed, rest = [(print client, printed)] /\
        forall text, str_of sample_world client = Returned text ->
          printed = Returned VNone /\
          stdout (run sample_world twilio_client (fresh credentials ∅)).2 =
            stdout (fresh credentials ∅) +:+ text +:+ newline
    | Raised _ => rest = []
    end /\
    env_reads (calls sample_world twilio_client (fresh credentials ∅)) =
      [("TWILIO_SID", None); ("TWILIO_AUTH_TOKEN", None)] /\
    constructions (calls sample_world twilio_client (fresh credentials ∅)) =
      [(env_value (fresh credentials ∅) "TWILIO_SID",
        env_value (fresh credentials ∅) "TWILIO_AUTH_TOKEN")] /\
    filter (fun e => reads_input e)
           (calls sample_world twilio_client (fresh credentials ∅)).*1 =
      [getenv "TWILIO_SID" None; getenv "TWILIO_AUTH_TOKEN" None].
Proof.
  apply (twilio_client_reads_two_and_constructs sample_world (fresh credentials ∅)).
  vm_compute. reflexivity.
Defined.

(** C4, as stated, fails: with a client library that insists on both
    credentials, the construction call is made with [None] for the missing
    token and raises; no client object results and the run ends there. *)
Lemma twilio_client_absent_token_no_client :
  environ sid_only !! "TWILIO_AUTH_TOKEN" = None /\
  calls strict_world twilio_client sid_only =
    [ (import_from "os" [], Returned VNone);
      (import_from "dotenv" ["load_dotenv"], Returned VNone);
      (import_from "twilio.rest" ["Client"], Returned VNone);
      (getenv "TWILIO_SID" None, Returned (VStr "ACtest"));
      (getenv "TWILIO_AUTH_TOKEN" None, Returned VNone);
      (Client (VStr "ACtest") VNone,
       Raised (Exception "TwilioException" "Credentials are required")) ] /\
  (run strict_world twilio_client sid_only).1 =
    Failed (Exception "TwilioException" "Credentials are required") /\
  ~ (exists u p client,
       In (Client u p, Returned client) (calls strict_world twilio_client sid_only)).
Proof.
  assert (Hc : calls strict_world twilio_client sid_only =
    [ (import_from "os" [], Returned VNone);
      (import_from "dotenv" ["load_dotenv"], Returned VNone);
      (import_from "twilio.rest" ["Client"], Returned VNone);
      (getenv "TWILIO_SID" None, Returned (VStr "ACtest"));
      (getenv "TWILIO_AUTH_TOKEN" None, Returned VNone);
      (Client (VStr "ACtest") VNone,
       Raised (Exception "TwilioException" "Credentials are required")) ])
    by (vm_compute; reflexivity).
  split; [vm_compute; reflexivity|].
  split; [exact Hc|].
  split; [vm_compute; reflexivity|].
  rewrite Hc. intros (u & p & client & Hin). simpl in Hin.
  repeat (destruct Hin as [Hin|Hin]; [discriminate Hin|]). exact Hin.
Qed.

(** C4, amended.  When either variable is absent and the imports have
    succeeded, the script still makes the construction call, with [None]
    in the place of the absent variable and the other value as read; the
    script raises nothing of its own.  When the constructor returns a
    client, the run goes on to print it; when the constructor raises, that
    exception ends the run, and the construction call is the last call
    made. *)
Theorem twilio_client_absent_still_constructs (w : World) (st : state) :
  environ st !! "TWILIO_SID" = None \/ environ st !! "TWILIO_AUTH_TOKEN" = None ->
  import_failed (calls w twilio_client st) = false ->
  (env_value st "TWILIO_SID" = VNone \/ env_value st "TWILIO_AUTH_TOKEN" = VNone) /\
  exists r,
    In (Client (env_value st "TWILIO_SID") (env_value st "TWILIO_AUTH_TOKEN"), r)
       (calls w twilio_client st) /\
    match r with
    | Returned client =>
        exists printed, last (calls w twilio_client st) = Some (print client, printed)
    | Raised x =>
        (run w twilio_client st).1 = Failed x /\
        last (calls w twilio_client st) =
          Some (Client (env_value st "TWILIO_SID") (env_value st "TWILIO_AUTH_TOKEN"),
                Raised x)
    end.
Proof.
  intros Habsent Himports. split.
  { unfold env_value. destruct Habsent as [-> | ->]; [by left | by right]. }
  clear Habsent. revert Himports. unfold twilio_client, env_value.
  run_script; cbn; intros H; try discriminate H.
  - exists (Returned r2). split; [repeat (first [by left | right])|].
    by exists (Returned VNone).
  - exists (Returned r2). split; [repeat (first [by left | right])|].
    by exists (Raised s).
  - exists (Raised r2). split; [repeat (first [by left | right])|]. done.
Qed.

Lemma twilio_client_absent_still_constructs_witness :
  (env_value sid_only "TWILIO_SID" = VNone \/
   env_value sid_only "TWILIO_AUTH_TOKEN" = VNone) /\
  exists r,
    In (Client (env_value sid_only "TWILIO_SID")
               (env_value sid_only "TWILIO_AUTH_TOKEN"), r)
       (calls strict_world twilio_client sid_only) /\
    match r with
    | Returned client =>
        exists printed,
          last (calls strict_world twilio_client sid_only) =
            Some (print client, printed)
    | Raised x =>
        (run strict_world twilio_client sid_only).1 = Failed x /\
        last (calls strict_world twilio_client sid_only) =
          Some (Client (env_value sid_only "TWILIO_SID")
                       (env_value sid_only "TWILIO_AUTH_TOKEN"),
                Raised x)
    end.
Proof.
  apply (twilio_client_absent_still_constructs strict_world sid_only).
  - right. vm_compute. reflexivity.
  - vm_compute. reflexivity.
Defined.

(** ** Both scripts *)

(** C5.  Neither script has a [try] block.  Hence, in every run of either,
    a call that raises is the last call of the run, and the run ends with
    that very exception, neither caught nor replaced; and a run that fails
    fails with the exception of the last call it made. *)
Theorem scripts_do_not_handle_failures (w : World) (st : state) (p : prog) :
  p = transformer \/ p = twilio_client ->
  handler_free p /\
  (forall pre e x post,
     calls w p st = pre ++ (e, Raised x) :: post ->
     post = [] /\ (run w p st).1 = Failed x) /\
  (forall x,
     (run w p st).1 = Failed x ->
     exists pre e, calls w p st = pre ++ [(e, Raised x)]).
Proof.
  intros Hp.
  assert (Hfree : handler_free p)
    by (destruct Hp as [-> | ->];
        [apply transformer_handler_free | apply twilio_client_handler_free]).
  split; [exact Hfree|]. split.
  - intros pre e x post Hc. by eapply handler_free_propagates.
  - intros x Ho. by apply handler_free_failure.
Qed.

Lemma scripts_do_not_handle_failures_witness :
  @nil entry = [] /\
  (run offline_world transformer (fresh ∅ ∅)).1 =
    Failed (Exception "OSError" "cannot load distilgpt2").
Proof.
  destruct (scripts_do_not_handle_failures offline_world (fresh ∅ ∅) transformer
              (or_introl eq_refl)) as (_ & Hlast & _).
  apply (Hlast [(import_from "transformers" ["pipeline"], Returned VNone)]
               (pipeline "text-generation" "distilgpt2")).
  vm_compute. reflexivity.
Defined.

(** C6.  No call made by either script, in any run, opens a file or loads
    the [.env] file; in particular [load_dotenv], although imported by the
    messaging script, is never called, and the environment the messaging
    script runs in is the one it ends with. *)
Theorem scripts_do_no_file_io (w : World) (st : state) :
  Forall (fun en : entry => file_io en.1 = false) (calls w transformer st) /\
  Forall (fun en : entry => file_io en.1 = false) (calls w twilio_client st) /\
  environ (run w twilio_client st).2 = environ st.
Proof.
  split; [|split].
  - apply List.Forall_forall. intros en Hin.
    apply calls_emitted, transformer_emits in Hin.
    destruct Hin as [-> | [-> | [[c ->] | [v ->]]]]; reflexivity.
  - apply List.Forall_forall. intros en Hin.
    apply calls_emitted, twilio_client_emits in Hin.
    destruct Hin as [(m & ns & ->) | [-> | [-> | [(a & b & ->) | [v ->]]]]];
      reflexivity.
  - unfold twilio_client. run_script; reflexivity.
Qed.

(** Find the place of a given entry in an explicit log. *)
Ltac locate pre H :=
  repeat (destruct pre as [|? pre];
          [ try discriminate H; try (inversion H; subst; eauto; fail)
          | try discriminate H; apply (f_equal (@tail entry)) in H; cbn in H ]).

(** C8.  No call made by the messaging script, in any run, is a request
    through a client; and once the construction call has returned the
    client, exactly one more call is made: the printing of that client. *)
Theorem twilio_client_handle_constructed_then_printed (w : World) (st : state) :
  Forall (fun en : entry => network_call en.1 = false) (calls w twilio_client st) /\
  (forall pre u p client post,
     calls w twilio_client st = pre ++ (Client u p, Returned client) :: post ->
     exists printed, post = [(print client, printed)]).
Proof.
  split.
  - apply List.Forall_forall. intros en Hin.
    apply calls_emitted, twilio_client_emits in Hin.
    destruct Hin as [(m & ns & ->) | [-> | [-> | [(a & b & ->) | [v ->]]]]];
      reflexivity.
  - intros pre u p client post. unfold twilio_client.
    run_script; intros H; locate pre H.
Qed.

Lemma twilio_client_handle_constructed_then_printed_witness :
  exists printed, [(print (VObj 3), Returned VNone)] = [(print (VObj 3), printed)].
Proof.
  apply (proj2 (twilio_client_handle_constructed_then_printed
                  sample_world (fresh credentials ∅))
           [ (import_from "os" [], Returned VNone);
             (import_from "dotenv" ["load_dotenv"], Returned VNone);
             (import_from "twilio.rest" ["Client"], Returned VNone);
             (getenv "TWILIO_SID" None, Returned (VStr "ACtest"));
             (getenv "TWILIO_AUTH_TOKEN" None, Returned (VStr "secret")) ]
           (VStr "ACtest") (VStr "secret")).
  vm_compute. reflexivity.
Defined.

(** C10, as stated, fails: with a client library that falls back on
    [TWILIO_ACCOUNT_SID], two runs that give [TWILIO_SID] and
    [TWILIO_AUTH_TOKEN] the same values (unset, and the same token) end
    differently, because that other variable is set in one and not in the
    other: one run is ended by the constructor, the other prints a
    client. *)
Lemma twilio_client_other_variable_changes_run :
  environ token_only !! "TWILIO_SID" = environ token_and_account !! "TWILIO_SID" /\
  environ token_only !! "TWILIO_AUTH_TOKEN" =
    environ token_and_account !! "TWILIO_AUTH_TOKEN" /\
  stdout token_only = stdout token_and_account /\
  history token_only = history token_and_account /\
  (run fallback_world twilio_client token_only).1 =
    Failed (Exception "TwilioException" "Credentials are required") /\
  (run fallback_world twilio_client token_and_account).1 = Finished /\
  stdout (run fallback_world twilio_client token_only).2 = EmptyString /\
  stdout (run fallback_world twilio_client token_and_account).2 =
    "<Twilio ACthird>" +:+ newline /\
  (run fallback_world twilio_client token_only).1 <>
    (run fallback_world twilio_client token_and_account).1.
Proof. vm_compute. repeat split; congruence. Qed.

(** C10, amended.  Take two runs of the messaging script from process
    states that give [TWILIO_SID] and [TWILIO_AUTH_TOKEN] the same values
    (set or unset), whatever the [.env] file holds and whatever the other
    environment variables are.  Whatever the libraries do, in both runs
    the only input the script itself takes is [os.getenv] of these two
    variables, and every client construction is handed the same two
    values.  When moreover the libraries themselves take nothing from the
    process but these two variables and the calls made so far, the two
    runs make the same calls with the same results, write the same text to
    standard output and end the same way. *)
Theorem twilio_client_own_reads_are_two_variables (w : World) (st1 st2 : state) :
  environ st1 !! "TWILIO_SID" = environ st2 !! "TWILIO_SID" ->
  environ st1 !! "TWILIO_AUTH_TOKEN" = environ st2 !! "TWILIO_AUTH_TOKEN" ->
  stdout st1 = stdout st2 ->
  history st1 = history st2 ->
  Forall (fun e => reads_input e = true ->
                   e = getenv "TWILIO_SID" None \/ e = getenv "TWILIO_AUTH_TOKEN" None)
         ((calls w twilio_client st1).*1 ++ (calls w twilio_client st2).*1) /\
  Forall (fun c => c = (env_value st1 "TWILIO_SID", env_value st1 "TWILIO_AUTH_TOKEN"))
         (constructions (calls w twilio_client st1) ++
          constructions (calls w twilio_client st2)) /\
  (respects ["TWILIO_SID"; "TWILIO_AUTH_TOKEN"] w ->
   (run w twilio_client st1).1 = (run w twilio_client st2).1 /\
   stdout (run w twilio_client st1).2 = stdout (run w twilio_client st2).2 /\
   calls w twilio_client st1 = calls w twilio_client st2).
Proof.
  intros Hsid Htok Hout Hhist. split; [|split].
  - apply Forall_app. split; apply List.Forall_forall; intros e Hin;
      apply list_elem_of_In, list_elem_of_fmap in Hin as (en & -> & Hen);
      apply list_elem_of_In, calls_emitted, twilio_client_emits in Hen;
      destruct Hen as [(m & ns & ->) | [-> | [-> | [(a & b & ->) | [v ->]]]]];
      simpl; intros Hr; try discriminate Hr; auto.
  - apply Forall_app. split.
    + unfold twilio_client, env_value. run_script; cbn; by repeat constructor.
    + unfold env_value. rewrite Hsid, Htok.
      unfold twilio_client. run_script; cbn; by repeat constructor.
  - intros Hw.
    destruct (run_agree w ["TWILIO_SID"; "TWILIO_AUTH_TOKEN"] twilio_client Hw)
      with (st1 := st1) (st2 := st2) as (Ho & _ & Hout' & Hhist').
    + intros e He. apply twilio_client_emits in He.
      destruct He as [(m & ns & ->) | [-> | [-> | [(a & b & ->) | [v ->]]]]];
        simpl; auto.
    + repeat split; try done.
      intros k [<- | [<- | []]]; done.
    + repeat split; try done.
      rewrite !run_history, Hhist in Hhist'. by apply app_inv_head in Hhist'.
Qed.

Lemma twilio_client_own_reads_are_two_variables_witness :
  (run sample_world twilio_client (fresh credentials ∅)).1 =
  (run sample_world twilio_client (fresh more_variables other_dotenv)).1 /\
  stdout (run sample_world twilio_client (fresh credentials ∅)).2 =
  stdout (run sample_world twilio_client (fresh more_variables other_dotenv)).2 /\
  calls sample_world twilio_client (fresh credentials ∅) =
  calls sample_world twilio_client (fresh more_variables other_dotenv).
Proof.
  assert (Hsid : environ (fresh credentials ∅) !! "TWILIO_SID" =
                 environ (fresh more_variables other_dotenv) !! "TWILIO_SID")
    by (vm_compute; reflexivity).
  assert (Htok : environ (fresh credentials ∅) !! "TWILIO_AUTH_TOKEN" =
                 environ (fresh more_variables other_dotenv) !! "TWILIO_AUTH_TOKEN")
    by (vm_compute; reflexivity).
  destruct (twilio_client_own_reads_are_two_variables sample_world
              (fresh credentials ∅) (fresh more_variables other_dotenv)
              Hsid Htok eq_refl eq_refl) as (_ & _ & Hsame).
  apply Hsame. intros st1 st2 e _. reflexivity.
Defined.

(** For contrast: the variant that calls [load_dotenv()] first does depend
    on the [.env] file, while the script of the repository builds its
    client from the environment alone. *)
Remark loading_dotenv_would_depend_on_file :
  constructions (calls sample_world twilio_client_loading_dotenv (fresh ∅ ∅)) =
    [(VNone, VNone)] /\
  constructions (calls sample_world twilio_client_loading_dotenv (fresh ∅ other_dotenv)) =
    [(VStr "ACother", VStr "other")] /\
  constructions (calls sample_world twilio_client (fresh ∅ other_dotenv)) =
    [(VNone, VNone)].
Proof. vm_compute. done. Qed.

(** ** Further properties of the scripts *)

(** X1.  Either script writes to standard output exactly when its run
    reaches the end: a finished run has added one line, [str] of the value
    it printed followed by a newline, and a run ended by a failure has
    added nothing. *)
Theorem scripts_print_iff_finished (w : World) (st : state) :
  match (run w transformer st).1 with
  | Finished =>
      exists chatbot completion text,
        In (call_pipeline chatbot "Hello!" 20, Returned completion)
           (calls w transformer st) /\
        str_of w completion = Returned text /\
        stdout (run w transformer st).2 = stdout st +:+ text +:+ newline
  | Failed _ => stdout (run w transformer st).2 = stdout st
  end /\
  match (run w twilio_client st).1 with
  | Finished =>
      exists client text,
        In (Client (env_value st "TWILIO_SID") (env_value st "TWILIO_AUTH_TOKEN"),
            Returned client)
           (calls w twilio_client st) /\
        str_of w client = Returned text /\
        stdout (run w twilio_client st).2 = stdout st +:+ text +:+ newline
  | Failed _ => stdout (run w twilio_client st).2 = stdout st
  end.
Proof.
  split.
  - unfold transformer. run_script; try reflexivity.
    exists r0, r1, s. split; [cbn; tauto | done].
  - unfold twilio_client, env_value. run_script; try reflexivity.
    exists r2, s. split; [cbn; tauto | done].
Qed.

(** X3.  When an import of either script fails, the run has made no call
    but imports: no model is loaded, no environment variable is read, no
    client is constructed, nothing is printed, and the run ends with an
    exception. *)
Theorem failed_import_stops_script (w : World) (st : state) (p : prog) :
  p = transformer \/ p = twilio_client ->
  import_failed (calls w p st) = true ->
  Forall (fun en : entry => is_import en.1 = true) (calls w p st) /\
  (exists x, (run w p st).1 = Failed x) /\
  stdout (run w p st).2 = stdout st.
Proof.
  intros [-> | ->].
  - unfold transformer. run_script; cbn; intros H; try discriminate H.
    split; [by repeat constructor | eauto].
  - unfold twilio_client. run_script; cbn; intros H; try discriminate H;
      (split; [by repeat constructor | eauto]).
Qed.

Lemma failed_import_stops_script_witness :
  Forall (fun en : entry => is_import en.1 = true)
         (calls no_dotenv_world twilio_client (fresh credentials ∅)) /\
  (exists x, (run no_dotenv_world twilio_client (fresh credentials ∅)).1 = Failed x) /\
  stdout (run no_dotenv_world twilio_client (fresh credentials ∅)).2 =
    stdout (fresh credentials ∅).
Proof.
  apply (failed_import_stops_script no_dotenv_world (fresh credentials ∅)
           twilio_client (or_intror eq_refl)).
  vm_compute. reflexivity.
Defined.
